(** * ONBOARD_SARA4_PPP on MTS_DRAGONFLY_L471QG: power hooks and the default
      cellular device

    Shallow embedding of
    [targets/TARGET_STM/TARGET_STM32L4/TARGET_MTS_DRAGONFLY_L471QG/ONBOARD_SARA4_PPP.cpp].

    The three functions of the file only have effects: they call the onboard
    modem hooks, construct two function-local statics, log one line and
    configure flow control.  They are embedded in a state monad over a
    [World] that holds

    - the modem hardware, which only the hooks touch;
    - the storage and the initialisation guard of each function-local static;
    - the trace of the calls made to the collaborators, oldest first.

    What the file takes from headers that are not part of it is a parameter:
    the hooks of [cellular/onboard_modem_api.h] are the class
    [OnboardModemApi], the pins of [PinNames.h] and the build configuration
    are the class [Target].  Of [UARTSerial] only the constructor arguments
    and the last flow-control setting are kept. *)

From Stdlib Require Import String ZArith Bool List Lia.
Import ListNotations.

Local Open Scope Z_scope.

(** ** Collaborators *)

(** [nsapi_error_t] is a signed int; [NSAPI_ERROR_OK] is 0 and the failure
    codes are negative. *)
Definition nsapi_error_t : Type := Z.
Definition NSAPI_ERROR_OK : nsapi_error_t := 0.
Definition NSAPI_ERROR_DEVICE_ERROR : nsapi_error_t := -3012.

(** A [PinName] is an enumerator of the target's [PinNames.h], printed with
    [%d] by the source: an int. *)
Definition PinName : Type := Z.

(** The four hooks of [cellular/onboard_modem_api.h]. *)
Inductive Hook : Type :=
| HookInit        (* onboard_modem_init *)
| HookPowerUp     (* onboard_modem_power_up *)
| HookPowerDown   (* onboard_modem_power_down *)
| HookDeinit.     (* onboard_modem_deinit *)

(** The hooks are defined by the board, not by this file.  Each one acts on
    the modem hardware and comes back with some outcome; the source calls
    them as expression statements, so whatever they produce is dropped. *)
Class OnboardModemApi : Type := {
  Hardware : Type;
  HookOutcome : Type;
  hook_run : Hook -> Hardware -> HookOutcome * Hardware
}.

(** Build-time constants of the target: the feature flag tested by
    [#if DEVICE_SERIAL_FC], the enumerator [NC] and the modem pins of
    [PinNames.h], and the configured baud rate. *)
Class Target : Type := {
  DEVICE_SERIAL_FC : bool;
  NC : PinName;
  MDMTXD : PinName;
  MDMRXD : PinName;
  MDMRTS : PinName;
  MDMCTS : PinName;
  MBED_CONF_SARA4_PPP_BAUDRATE : Z
}.

(** [SerialBase::Flow]. *)
Inductive Flow : Type := Disabled | RTS | CTS | RTSCTS.

(** Addresses of the two function-local statics of
    [get_target_default_instance].  Static storage has a fixed address, so a
    pointer to one of them is the name of its slot. *)
Inductive Ptr : Type :=
| addr_serial     (* &serial *)
| addr_device.    (* &device *)

(** Modelled from the spec: the class [UARTSerial] of [UARTSerial.h], a
    byte-stream transport constructible from (transmit pin, receive pin, baud
    rate) with a "set flow control" call taking a mode and two pins.  The
    object records what it was constructed with and the last flow-control
    setting it was given. *)
Record UARTSerial : Type := mkUARTSerial {
  us_tx : PinName;
  us_rx : PinName;
  us_baud : Z;
  us_flow : option (Flow * PinName * PinName)
}.

(** [ONBOARD_SARA4_PPP::ONBOARD_SARA4_PPP(FileHandle *fh) : SARA4_PPP(fh)]:
    the object keeps the file handle it was given. *)
Record ONBOARD_SARA4_PPP : Type := mkONBOARD_SARA4_PPP {
  dev_fh : Ptr
}.

(** Calls made to the collaborators, as they appear in the trace. *)
Inductive Event : Type :=
| EvHook (h : Hook)
| EvConstructSerial (tx rx : PinName) (baud : Z)
| EvTrInfo (fmt : string) (args : list Z)
| EvSetFlowControl (self : Ptr) (mode : Flow) (rts cts : PinName)
| EvConstructDevice (fh : Ptr)
| EvDestroy (obj : Ptr).

Definition is_set_flow_control (e : Event) : bool :=
  match e with EvSetFlowControl _ _ _ _ => true | _ => false end.

Definition is_flow_control_step (e : Event) : bool :=
  match e with
  | EvTrInfo _ _ | EvSetFlowControl _ _ _ _ => true
  | _ => false
  end.

Definition is_construction (e : Event) : bool :=
  match e with
  | EvConstructSerial _ _ _ | EvConstructDevice _ => true
  | _ => false
  end.

Definition is_destruction (e : Event) : bool :=
  match e with EvDestroy _ => true | _ => false end.

(** The external calls of one kind in a trace, in order. *)
Definition set_flow_control_calls : list Event -> list Event :=
  filter is_set_flow_control.
Definition flow_control_steps : list Event -> list Event :=
  filter is_flow_control_step.
Definition constructions : list Event -> list Event := filter is_construction.
Definition destructions : list Event -> list Event := filter is_destruction.

(** ** The world and its monad *)

Section Model.
Context {api : OnboardModemApi} {tgt : Target}.

Record World : Type := mkWorld {
  hw : Hardware;
  static_serial : option UARTSerial;        (* [static UARTSerial serial] *)
  static_device : option ONBOARD_SARA4_PPP; (* [static ONBOARD_SARA4_PPP device] *)
  trace : list Event
}.

(** Process start: nothing constructed, nothing called. *)
Definition init_world (hw0 : Hardware) : World :=
  mkWorld hw0 None None [].

Definition M (A : Type) : Type := World -> A * World.

Definition ret {A : Type} (a : A) : M A := fun w => (a, w).

Definition bind {A B : Type} (m : M A) (k : A -> M B) : M B :=
  fun w => let (a, w') := m w in k a w'.

Definition emit (e : Event) : M unit :=
  fun w => (tt, mkWorld (hw w) (static_serial w) (static_device w)
                        (trace w ++ [e])).

(** The events a computation adds to the trace when run from [w]. *)
Definition emitted {A : Type} (m : M A) (w : World) : list Event :=
  skipn (length (trace w)) (trace (snd (m w))).

(** What a pointer to the adapter refers to in a world. *)
Definition deref_device (p : Ptr) (w : World) : option ONBOARD_SARA4_PPP :=
  match p with
  | addr_device => static_device w
  | addr_serial => None
  end.
End Model.

Declare Scope world_scope.
Notation "x <- m ;; k" := (bind m (fun x => k))
  (at level 61, m at next level, right associativity) : world_scope.
Notation "m ;; k" := (bind m (fun _ => k))
  (at level 61, right associativity) : world_scope.
Local Open Scope world_scope.

(** ** The source *)

Section Source.
Context {api : OnboardModemApi} {tgt : Target}.

(** A call of one hook: it acts on the hardware and is recorded. *)
Definition call_hook (h : Hook) : M HookOutcome :=
  fun w =>
    let (r, hw') := hook_run h (hw w) in
    (r, mkWorld hw' (static_serial w) (static_device w)
                (trace w ++ [EvHook h])).

Definition onboard_modem_init : M HookOutcome := call_hook HookInit.
Definition onboard_modem_power_up : M HookOutcome := call_hook HookPowerUp.
Definition onboard_modem_power_down : M HookOutcome := call_hook HookPowerDown.
Definition onboard_modem_deinit : M HookOutcome := call_hook HookDeinit.

(** [nsapi_error_t ONBOARD_SARA4_PPP::power_on()] *)
Definition power_on : M nsapi_error_t :=
  onboard_modem_init ;;
  onboard_modem_power_up ;;
  ret NSAPI_ERROR_OK.

(** [nsapi_error_t ONBOARD_SARA4_PPP::power_off()] *)
Definition power_off : M nsapi_error_t :=
  onboard_modem_power_down ;;
  onboard_modem_deinit ;;
  ret NSAPI_ERROR_OK.

(** [static UARTSerial serial(tx, rx, baud);]: the constructor runs the
    first time control passes through the declaration and never again. *)
Definition static_UARTSerial_serial (tx rx : PinName) (baud : Z) : M unit :=
  fun w =>
    match static_serial w with
    | Some _ => (tt, w)
    | None =>
        (tt, mkWorld (hw w) (Some (mkUARTSerial tx rx baud None))
                     (static_device w)
                     (trace w ++ [EvConstructSerial tx rx baud]))
    end.

(** [static ONBOARD_SARA4_PPP device(fh);], likewise. *)
Definition static_ONBOARD_SARA4_PPP_device (fh : Ptr) : M unit :=
  fun w =>
    match static_device w with
    | Some _ => (tt, w)
    | None =>
        (tt, mkWorld (hw w) (static_serial w)
                     (Some (mkONBOARD_SARA4_PPP fh))
                     (trace w ++ [EvConstructDevice fh]))
    end.

(** [tr_info(fmt, ...)] *)
Definition tr_info (fmt : string) (args : list Z) : M unit :=
  emit (EvTrInfo fmt args).

(** [serial.set_flow_control(mode, rts, cts)] *)
Definition serial_set_flow_control (mode : Flow) (rts cts : PinName)
  : M unit :=
  fun w =>
    (tt, mkWorld (hw w)
           (option_map
              (fun s => mkUARTSerial (us_tx s) (us_rx s) (us_baud s)
                                     (Some (mode, rts, cts)))
              (static_serial w))
           (static_device w)
           (trace w ++ [EvSetFlowControl addr_serial mode rts cts])).

(** [CellularDevice *CellularDevice::get_target_default_instance()] *)
Definition get_target_default_instance : M Ptr :=
  static_UARTSerial_serial MDMTXD MDMRXD MBED_CONF_SARA4_PPP_BAUDRATE ;;
  (if DEVICE_SERIAL_FC then
     if negb (MDMRTS =? NC) && negb (MDMCTS =? NC) then
       tr_info "Modem flow control: RTS %d CTS %d" [MDMRTS; MDMCTS] ;;
       serial_set_flow_control RTSCTS MDMRTS MDMCTS
     else ret tt
   else ret tt) ;;
  static_ONBOARD_SARA4_PPP_device addr_serial ;;
  ret addr_device.

(** The guard of the flow-control block: [#if DEVICE_SERIAL_FC] and, inside
    it, [MDMRTS != NC && MDMCTS != NC]. *)
Definition flow_control_guard : bool :=
  if DEVICE_SERIAL_FC then negb (MDMRTS =? NC) && negb (MDMCTS =? NC)
  else false.

(** The two external calls of the flow-control block. *)
Definition flow_control_block : list Event :=
  [EvTrInfo "Modem flow control: RTS %d CTS %d" [MDMRTS; MDMCTS];
   EvSetFlowControl addr_serial RTSCTS MDMRTS MDMCTS].

(** The adapter the second static declaration constructs. *)
Definition fresh_device : ONBOARD_SARA4_PPP :=
  mkONBOARD_SARA4_PPP addr_serial.

(** The constructor calls still to come in a world: one for each static
    whose declaration has not been passed yet. *)
Definition pending_constructions (w : World) : list Event :=
  (match static_serial w with
   | Some _ => []
   | None => [EvConstructSerial MDMTXD MDMRXD MBED_CONF_SARA4_PPP_BAUDRATE]
   end)
  ++ (match static_device w with
      | Some _ => []
      | None => [EvConstructDevice addr_serial]
      end).

(** ** Sequences of calls *)

(** The entry points of the file, as a client calls them. *)
Inductive Call : Type :=
| CallPowerOn
| CallPowerOff
| CallGetInstance.

Inductive Returned : Type :=
| RetError (e : nsapi_error_t)
| RetDevice (p : Ptr).

Definition is_get_instance (c : Call) : bool :=
  match c with CallGetInstance => true | _ => false end.

Definition exec (c : Call) : M Returned :=
  match c with
  | CallPowerOn => e <- power_on ;; ret (RetError e)
  | CallPowerOff => e <- power_off ;; ret (RetError e)
  | CallGetInstance => p <- get_target_default_instance ;; ret (RetDevice p)
  end.

(** How many of the calls are calls of [get_target_default_instance]. *)
Definition count_get_instance (cs : list Call) : nat :=
  length (filter is_get_instance cs).

(** Runs the calls in order and collects what each returned. *)
Fixpoint run (cs : list Call) : M (list Returned) :=
  match cs with
  | [] => ret []
  | c :: cs' => r <- exec c ;; rs <- run cs' ;; ret (r :: rs)
  end.

(** ** Vocabulary for the interplay of the entry points *)

Definition is_hook (e : Event) : bool :=
  match e with EvHook _ => true | _ => false end.

(** The hook calls of a trace, and everything else in it. *)
Definition hook_calls : list Event -> list Event := filter is_hook.
Definition other_calls : list Event -> list Event :=
  filter (fun e => negb (is_hook e)).


(** The serial object the first static declaration constructs. *)
Definition fresh_serial : UARTSerial :=
  mkUARTSerial MDMTXD MDMRXD MBED_CONF_SARA4_PPP_BAUDRATE None.

(** A serial object once control has passed the flow-control block. *)
Definition flow_control_applied (s : UARTSerial) : UARTSerial :=
  if flow_control_guard
  then mkUARTSerial (us_tx s) (us_rx s) (us_baud s)
                    (Some (RTSCTS, MDMRTS, MDMCTS))
  else s.
End Source.

(** ** Sample boards *)

(** A board whose hooks all fail: each reports a device error and leaves the
    hardware (a count of hook calls) otherwise untouched. *)
Definition failing_api : OnboardModemApi :=
  {| Hardware := nat;
     HookOutcome := nsapi_error_t;
     hook_run := fun _ n => (NSAPI_ERROR_DEVICE_ERROR, S n) |}.

(** That board at process start, no hook called yet. *)
Definition boot : @World failing_api := @init_world failing_api 0%nat.

(** Flow control compiled in, RTS on pin 0 and CTS on pin 1. *)
Definition target_fc : Target :=
  {| DEVICE_SERIAL_FC := true;
     NC := -1;
     MDMTXD := 2;
     MDMRXD := 3;
     MDMRTS := 0;
     MDMCTS := 1;
     MBED_CONF_SARA4_PPP_BAUDRATE := 115200 |}.

(** The same pins with flow control compiled out. *)
Definition target_no_fc : Target :=
  {| DEVICE_SERIAL_FC := false;
     NC := -1;
     MDMTXD := 2;
     MDMRXD := 3;
     MDMRTS := 0;
     MDMCTS := 1;
     MBED_CONF_SARA4_PPP_BAUDRATE := 115200 |}.

(** Flow control compiled in, but CTS is not connected. *)
Definition target_cts_nc : Target :=
  {| DEVICE_SERIAL_FC := true;
     NC := -1;
     MDMTXD := 2;
     MDMRXD := 3;
     MDMRTS := 0;
     MDMCTS := -1;
     MBED_CONF_SARA4_PPP_BAUDRATE := 115200 |}.


(** ** Properties *)

Section Properties.
Context {api : OnboardModemApi} {tgt : Target}.

(** *** The monad *)

Lemma bind_run {A B : Type} (m : M A) (k : A -> M B) (w : World) :
  bind m k w = k (fst (m w)) (snd (m w)).
Proof. unfold bind. destruct (m w); reflexivity. Qed.

Lemma skipn_length_app {A : Type} (l l' : list A) :
  skipn (length l) (l ++ l') = l'.
Proof. induction l as [|a l IH]; simpl; auto. Qed.

Lemma emitted_of_trace {A : Type} (m : M A) (w : World) (evs : list Event) :
  trace (snd (m w)) = trace w ++ evs -> emitted m w = evs.
Proof. intros H. unfold emitted. rewrite H. apply skipn_length_app. Qed.

(** *** The power hooks *)

Lemma call_hook_run (h : Hook) (w : World) :
  call_hook h w =
  (fst (hook_run h (hw w)),
   mkWorld (snd (hook_run h (hw w))) (static_serial w) (static_device w)
           (trace w ++ [EvHook h])).
Proof. unfold call_hook. destruct (hook_run h (hw w)); reflexivity. Qed.

Lemma two_hooks_run (h1 h2 : Hook) (w : World) :
  (call_hook h1 ;; call_hook h2 ;; ret NSAPI_ERROR_OK) w =
  (NSAPI_ERROR_OK,
   mkWorld (snd (hook_run h2 (snd (hook_run h1 (hw w)))))
           (static_serial w) (static_device w)
           (trace w ++ [EvHook h1; EvHook h2])).
Proof.
  rewrite bind_run, call_hook_run. cbn [fst snd].
  rewrite bind_run, call_hook_run. cbn [fst snd hw static_serial static_device trace].
  unfold ret. rewrite <- app_assoc. reflexivity.
Qed.

Lemma power_on_run (w : World) :
  power_on w =
  (NSAPI_ERROR_OK,
   mkWorld (snd (hook_run HookPowerUp (snd (hook_run HookInit (hw w)))))
           (static_serial w) (static_device w)
           (trace w ++ [EvHook HookInit; EvHook HookPowerUp])).
Proof. apply two_hooks_run. Qed.

Lemma power_off_run (w : World) :
  power_off w =
  (NSAPI_ERROR_OK,
   mkWorld (snd (hook_run HookDeinit (snd (hook_run HookPowerDown (hw w)))))
           (static_serial w) (static_device w)
           (trace w ++ [EvHook HookPowerDown; EvHook HookDeinit])).
Proof. apply two_hooks_run. Qed.

(** C3. [power_on] returns [NSAPI_ERROR_OK] from every world and for every
    implementation of the hooks, whatever outcome they come back with. *)
Theorem power_on_always_ok (w : World) :
  fst (power_on w) = NSAPI_ERROR_OK.
Proof. rewrite power_on_run. reflexivity. Qed.

(** C4. [power_off] returns [NSAPI_ERROR_OK] from every world and for every
    implementation of the hooks, whatever outcome they come back with. *)
Theorem power_off_always_ok (w : World) :
  fst (power_off w) = NSAPI_ERROR_OK.
Proof. rewrite power_off_run. reflexivity. Qed.

(** C5. A call of [power_on] makes exactly two external calls, in this order:
    [onboard_modem_init], then [onboard_modem_power_up]; the hardware is left
    as the second hook leaves what the first one produced, and the statics
    are not touched. *)
Theorem power_on_hooks_in_order (w : World) :
  emitted power_on w = [EvHook HookInit; EvHook HookPowerUp] /\
  trace (snd (power_on w)) = trace w ++ [EvHook HookInit; EvHook HookPowerUp] /\
  hw (snd (power_on w)) =
    snd (hook_run HookPowerUp (snd (hook_run HookInit (hw w)))) /\
  static_serial (snd (power_on w)) = static_serial w /\
  static_device (snd (power_on w)) = static_device w.
Proof.
  split.
  - apply emitted_of_trace. rewrite power_on_run. reflexivity.
  - rewrite power_on_run. cbn. auto.
Qed.

(** C6. A call of [power_off] makes exactly two external calls, in this order:
    [onboard_modem_power_down], then [onboard_modem_deinit]; the hardware is
    left as the second hook leaves what the first one produced, and the
    statics are not touched. *)
Theorem power_off_hooks_in_order (w : World) :
  emitted power_off w = [EvHook HookPowerDown; EvHook HookDeinit] /\
  trace (snd (power_off w)) =
    trace w ++ [EvHook HookPowerDown; EvHook HookDeinit] /\
  hw (snd (power_off w)) =
    snd (hook_run HookDeinit (snd (hook_run HookPowerDown (hw w)))) /\
  static_serial (snd (power_off w)) = static_serial w /\
  static_device (snd (power_off w)) = static_device w.
Proof.
  split.
  - apply emitted_of_trace. rewrite power_off_run. reflexivity.
  - rewrite power_off_run. cbn. auto.
Qed.

(** *** The default instance *)

Lemma flow_control_guard_true :
  DEVICE_SERIAL_FC = true -> MDMRTS <> NC -> MDMCTS <> NC ->
  flow_control_guard = true.
Proof.
  intros Hfc Hrts Hcts. unfold flow_control_guard. rewrite Hfc.
  apply Z.eqb_neq in Hrts. apply Z.eqb_neq in Hcts.
  rewrite Hrts, Hcts. reflexivity.
Qed.

Lemma flow_control_guard_no_flag :
  DEVICE_SERIAL_FC = false -> flow_control_guard = false.
Proof. intros Hfc. unfold flow_control_guard. rewrite Hfc. reflexivity. Qed.

Lemma flow_control_guard_nc :
  MDMRTS = NC \/ MDMCTS = NC -> flow_control_guard = false.
Proof.
  intros H. unfold flow_control_guard. destruct DEVICE_SERIAL_FC; auto.
  destruct H as [H | H]; rewrite H, Z.eqb_refl; cbn.
  - reflexivity.
  - apply andb_false_r.
Qed.

(** The whole effect of one call, with the three places where the source
    branches made explicit. *)
Lemma get_target_default_instance_run (w : World) :
  get_target_default_instance w =
  (addr_device,
   mkWorld
     (hw w)
     (let s := match static_serial w with
               | Some s => s
               | None => mkUARTSerial MDMTXD MDMRXD
                                      MBED_CONF_SARA4_PPP_BAUDRATE None
               end in
      Some (if flow_control_guard
            then mkUARTSerial (us_tx s) (us_rx s) (us_baud s)
                              (Some (RTSCTS, MDMRTS, MDMCTS))
            else s))
     (Some match static_device w with
           | Some d => d
           | None => mkONBOARD_SARA4_PPP addr_serial
           end)
     (trace w
        ++ (match static_serial w with
            | Some _ => []
            | None => [EvConstructSerial MDMTXD MDMRXD
                                         MBED_CONF_SARA4_PPP_BAUDRATE]
            end)
        ++ (if flow_control_guard then flow_control_block else [])
        ++ (match static_device w with
            | Some _ => []
            | None => [EvConstructDevice addr_serial]
            end))).
Proof.
  destruct w as [h ss sd tr].
  unfold get_target_default_instance, flow_control_guard, flow_control_block,
    static_UARTSerial_serial, static_ONBOARD_SARA4_PPP_device, tr_info,
    serial_set_flow_control, emit, bind, ret.
  cbn [hw static_serial static_device trace].
  destruct ss as [s|], DEVICE_SERIAL_FC,
    (negb (MDMRTS =? NC) && negb (MDMCTS =? NC)), sd as [d|];
    cbn [hw static_serial static_device trace option_map us_tx us_rx us_baud app];
    repeat rewrite <- app_assoc; cbn [app]; rewrite ?app_nil_r;
    try destruct s; reflexivity.
Qed.

Lemma get_target_default_instance_emitted (w : World) :
  emitted get_target_default_instance w =
  (match static_serial w with
   | Some _ => []
   | None => [EvConstructSerial MDMTXD MDMRXD MBED_CONF_SARA4_PPP_BAUDRATE]
   end)
  ++ (if flow_control_guard then flow_control_block else [])
  ++ (match static_device w with
      | Some _ => []
      | None => [EvConstructDevice addr_serial]
      end).
Proof.
  apply emitted_of_trace. rewrite get_target_default_instance_run.
  reflexivity.
Qed.

(** *** Sequences of calls *)

Lemma exec_snd (c : Call) (w : World) :
  snd (exec c w) =
  match c with
  | CallPowerOn => snd (power_on w)
  | CallPowerOff => snd (power_off w)
  | CallGetInstance => snd (get_target_default_instance w)
  end.
Proof. destruct c; unfold exec; rewrite bind_run; reflexivity. Qed.

Lemma exec_emitted (c : Call) (w : World) :
  emitted (exec c) w =
  match c with
  | CallPowerOn => emitted power_on w
  | CallPowerOff => emitted power_off w
  | CallGetInstance => emitted get_target_default_instance w
  end.
Proof. unfold emitted. rewrite exec_snd. destruct c; reflexivity. Qed.

(** Every call only appends to the trace. *)
Lemma exec_trace (c : Call) (w : World) :
  trace (snd (exec c w)) = trace w ++ emitted (exec c) w.
Proof.
  rewrite exec_emitted, exec_snd. destruct c.
  - rewrite (emitted_of_trace power_on w [EvHook HookInit; EvHook HookPowerUp]);
      rewrite power_on_run; reflexivity.
  - rewrite (emitted_of_trace power_off w
               [EvHook HookPowerDown; EvHook HookDeinit]);
      rewrite power_off_run; reflexivity.
  - rewrite get_target_default_instance_emitted,
      get_target_default_instance_run. reflexivity.
Qed.

Lemma run_cons_snd (c : Call) (cs : list Call) (w : World) :
  snd (run (c :: cs) w) = snd (run cs (snd (exec c w))).
Proof. cbn [run]. rewrite !bind_run. reflexivity. Qed.

Lemma run_trace (cs : list Call) (w : World) :
  trace (snd (run cs w)) = trace w ++ emitted (run cs) w.
Proof.
  revert w. induction cs as [|c cs IH]; intros w.
  - unfold emitted. cbn. rewrite skipn_all, app_nil_r. reflexivity.
  - unfold emitted. rewrite run_cons_snd, IH, exec_trace, <- app_assoc.
    rewrite skipn_length_app. reflexivity.
Qed.

Lemma run_emitted_cons (c : Call) (cs : list Call) (w : World) :
  emitted (run (c :: cs)) w =
  emitted (exec c) w ++ emitted (run cs) (snd (exec c w)).
Proof.
  apply emitted_of_trace.
  rewrite run_cons_snd, run_trace, exec_trace, <- app_assoc. reflexivity.
Qed.

Lemma run_emitted_nil (w : World) : emitted (run []) w = [].
Proof. unfold emitted. cbn. apply skipn_all. Qed.

Lemma power_on_emitted (w : World) :
  emitted power_on w = [EvHook HookInit; EvHook HookPowerUp].
Proof. apply emitted_of_trace. rewrite power_on_run. reflexivity. Qed.

Lemma power_off_emitted (w : World) :
  emitted power_off w = [EvHook HookPowerDown; EvHook HookDeinit].
Proof. apply emitted_of_trace. rewrite power_off_run. reflexivity. Qed.

(** What one call adds to the trace, by kind of external call. *)
Lemma exec_set_flow_control_calls (c : Call) (w : World) :
  set_flow_control_calls (emitted (exec c) w) =
  if is_get_instance c && flow_control_guard
  then [EvSetFlowControl addr_serial RTSCTS MDMRTS MDMCTS]
  else [].
Proof.
  rewrite exec_emitted. destruct c; cbn [is_get_instance andb].
  - rewrite power_on_emitted. reflexivity.
  - rewrite power_off_emitted. reflexivity.
  - rewrite get_target_default_instance_emitted.
    unfold set_flow_control_calls. rewrite !filter_app.
    destruct (static_serial w), flow_control_guard, (static_device w);
      reflexivity.
Qed.

Lemma exec_flow_control_steps (c : Call) (w : World) :
  flow_control_steps (emitted (exec c) w) =
  if is_get_instance c && flow_control_guard then flow_control_block else [].
Proof.
  rewrite exec_emitted. destruct c; cbn [is_get_instance andb].
  - rewrite power_on_emitted. reflexivity.
  - rewrite power_off_emitted. reflexivity.
  - rewrite get_target_default_instance_emitted.
    unfold flow_control_steps. rewrite !filter_app.
    destruct (static_serial w), flow_control_guard, (static_device w);
      reflexivity.
Qed.

Lemma exec_constructions (c : Call) (w : World) :
  constructions (emitted (exec c) w) =
  if is_get_instance c then pending_constructions w else [].
Proof.
  rewrite exec_emitted. destruct c; cbn [is_get_instance].
  - rewrite power_on_emitted. reflexivity.
  - rewrite power_off_emitted. reflexivity.
  - rewrite get_target_default_instance_emitted.
    unfold constructions, pending_constructions. rewrite !filter_app.
    destruct (static_serial w), flow_control_guard, (static_device w);
      reflexivity.
Qed.

Lemma exec_destructions (c : Call) (w : World) :
  destructions (emitted (exec c) w) = [].
Proof.
  rewrite exec_emitted. destruct c.
  - rewrite power_on_emitted. reflexivity.
  - rewrite power_off_emitted. reflexivity.
  - rewrite get_target_default_instance_emitted.
    unfold destructions. rewrite !filter_app.
    destruct (static_serial w), flow_control_guard, (static_device w);
      reflexivity.
Qed.

(** What one call does to the two statics. *)
Lemma exec_static_device (c : Call) (w : World) :
  static_device (snd (exec c w)) =
  if is_get_instance c
  then Some match static_device w with
            | Some d => d
            | None => fresh_device
            end
  else static_device w.
Proof.
  rewrite exec_snd. destruct c; cbn [is_get_instance].
  - rewrite power_on_run. reflexivity.
  - rewrite power_off_run. reflexivity.
  - rewrite get_target_default_instance_run. reflexivity.
Qed.

Lemma exec_static_serial_args (c : Call) (w : World) :
  option_map (fun s => (us_tx s, us_rx s, us_baud s))
             (static_serial (snd (exec c w))) =
  if is_get_instance c
  then Some match static_serial w with
            | Some s => (us_tx s, us_rx s, us_baud s)
            | None => (MDMTXD, MDMRXD, MBED_CONF_SARA4_PPP_BAUDRATE)
            end
  else option_map (fun s => (us_tx s, us_rx s, us_baud s)) (static_serial w).
Proof.
  rewrite exec_snd. destruct c; cbn [is_get_instance].
  - rewrite power_on_run. reflexivity.
  - rewrite power_off_run. reflexivity.
  - rewrite get_target_default_instance_run.
    cbn [snd static_serial option_map].
    destruct (static_serial w), flow_control_guard; reflexivity.
Qed.

Lemma exec_pending_constructions (c : Call) (w : World) :
  pending_constructions (snd (exec c w)) =
  if is_get_instance c then [] else pending_constructions w.
Proof.
  rewrite exec_snd. destruct c; cbn [is_get_instance].
  - rewrite power_on_run. reflexivity.
  - rewrite power_off_run. reflexivity.
  - rewrite get_target_default_instance_run. reflexivity.
Qed.

(** The same over a sequence of calls. *)
Lemma run_set_flow_control_calls (cs : list Call) (w : World) :
  set_flow_control_calls (emitted (run cs) w) =
  if flow_control_guard
  then repeat (EvSetFlowControl addr_serial RTSCTS MDMRTS MDMCTS)
              (count_get_instance cs)
  else [].
Proof.
  revert w. induction cs as [|c cs IH]; intros w.
  - rewrite run_emitted_nil. destruct flow_control_guard; reflexivity.
  - rewrite run_emitted_cons. unfold set_flow_control_calls in *.
    rewrite filter_app.
    fold (set_flow_control_calls (emitted (exec c) w)).
    rewrite exec_set_flow_control_calls, IH.
    unfold count_get_instance. cbn [filter].
    destruct (is_get_instance c), flow_control_guard; reflexivity.
Qed.

Lemma run_flow_control_steps (cs : list Call) (w : World) :
  flow_control_steps (emitted (run cs) w) =
  if flow_control_guard
  then concat (repeat flow_control_block (count_get_instance cs))
  else [].
Proof.
  revert w. induction cs as [|c cs IH]; intros w.
  - rewrite run_emitted_nil. destruct flow_control_guard; reflexivity.
  - rewrite run_emitted_cons. unfold flow_control_steps in *.
    rewrite filter_app.
    fold (flow_control_steps (emitted (exec c) w)).
    rewrite exec_flow_control_steps, IH.
    unfold count_get_instance. cbn [filter].
    destruct (is_get_instance c), flow_control_guard; reflexivity.
Qed.

Lemma run_constructions (cs : list Call) (w : World) :
  constructions (emitted (run cs) w) =
  if existsb is_get_instance cs then pending_constructions w else [].
Proof.
  revert w. induction cs as [|c cs IH]; intros w.
  - rewrite run_emitted_nil. reflexivity.
  - rewrite run_emitted_cons. unfold constructions in *.
    rewrite filter_app.
    fold (constructions (emitted (exec c) w)).
    rewrite exec_constructions, IH, exec_pending_constructions.
    cbn [existsb].
    destruct (is_get_instance c); cbn [orb app].
    + destruct (existsb is_get_instance cs); apply app_nil_r.
    + reflexivity.
Qed.

Lemma run_destructions (cs : list Call) (w : World) :
  destructions (emitted (run cs) w) = [].
Proof.
  revert w. induction cs as [|c cs IH]; intros w.
  - rewrite run_emitted_nil. reflexivity.
  - rewrite run_emitted_cons. unfold destructions in *.
    rewrite filter_app.
    fold (destructions (emitted (exec c) w)).
    rewrite exec_destructions, IH. reflexivity.
Qed.

Lemma run_static_device (cs : list Call) (w : World) :
  static_device (snd (run cs w)) =
  match static_device w with
  | Some d => Some d
  | None => if existsb is_get_instance cs then Some fresh_device else None
  end.
Proof.
  revert w. induction cs as [|c cs IH]; intros w.
  - cbn. destruct (static_device w); reflexivity.
  - rewrite run_cons_snd, IH, exec_static_device. cbn [existsb].
    destruct (is_get_instance c), (static_device w); reflexivity.
Qed.

Lemma run_static_serial_args (cs : list Call) (w : World) :
  option_map (fun s => (us_tx s, us_rx s, us_baud s))
             (static_serial (snd (run cs w))) =
  match static_serial w with
  | Some s => Some (us_tx s, us_rx s, us_baud s)
  | None =>
      if existsb is_get_instance cs
      then Some (MDMTXD, MDMRXD, MBED_CONF_SARA4_PPP_BAUDRATE)
      else None
  end.
Proof.
  revert w. induction cs as [|c cs IH]; intros w.
  - cbn. destruct (static_serial w); reflexivity.
  - rewrite run_cons_snd.
    specialize (IH (snd (exec c w))).
    pose proof (exec_static_serial_args c w) as Hc.
    cbn [existsb].
    destruct (static_serial (snd (exec c w))) as [s1|] eqn:E1;
      destruct (is_get_instance c), (static_serial w) as [s0|];
      cbn [option_map orb] in *; try discriminate;
      rewrite IH; try assumption; try reflexivity.
Qed.

Lemma init_trace (cs : list Call) (hw0 : Hardware) :
  trace (snd (run cs (init_world hw0))) = emitted (run cs) (init_world hw0).
Proof. rewrite run_trace. reflexivity. Qed.

(** *** The claims about the default instance *)

(** C1, as amended.  With the flow-control flag on and both flow-control pins
    configured, [set_flow_control] is invoked once per call of
    [get_target_default_instance]: over a process that makes [n] such calls
    (in any interleaving with [power_on] and [power_off]) it is invoked [n]
    times, each time on the singleton serial object with mode [RTSCTS] and
    the configured RTS and CTS pins.  On the first call the invocation comes
    after the construction of the serial object and before the adapter is
    constructed and returned. *)
Theorem set_flow_control_once_per_call
    (Hfc : DEVICE_SERIAL_FC = true)
    (Hrts : MDMRTS <> NC) (Hcts : MDMCTS <> NC)
    (hw0 : Hardware) (cs : list Call) :
  set_flow_control_calls (trace (snd (run cs (init_world hw0)))) =
    repeat (EvSetFlowControl addr_serial RTSCTS MDMRTS MDMCTS)
           (count_get_instance cs) /\
  fst (get_target_default_instance (init_world hw0)) = addr_device /\
  trace (snd (get_target_default_instance (init_world hw0))) =
    [EvConstructSerial MDMTXD MDMRXD MBED_CONF_SARA4_PPP_BAUDRATE;
     EvTrInfo "Modem flow control: RTS %d CTS %d" [MDMRTS; MDMCTS];
     EvSetFlowControl addr_serial RTSCTS MDMRTS MDMCTS;
     EvConstructDevice addr_serial].
Proof.
  pose proof (flow_control_guard_true Hfc Hrts Hcts) as Hg.
  split; [|split].
  - rewrite init_trace, run_set_flow_control_calls, Hg. reflexivity.
  - rewrite get_target_default_instance_run. reflexivity.
  - rewrite get_target_default_instance_run. cbn. rewrite Hg. reflexivity.
Qed.

(** C2. Two calls of [get_target_default_instance], from any world and with
    any calls in between, return the same pointer, and it points to the same
    object: the adapter found behind the second pointer is the one found
    behind the first, and nothing was constructed after the first call
    returned. *)
Theorem get_target_default_instance_same_instance
    (w : World) (between : list Call) :
  let r1 := get_target_default_instance w in
  let w2 := snd (run between (snd r1)) in
  let r2 := get_target_default_instance w2 in
  fst r2 = fst r1 /\
  (exists d, deref_device (fst r1) (snd r1) = Some d) /\
  deref_device (fst r2) (snd r2) = deref_device (fst r1) (snd r1) /\
  constructions (emitted (run between) (snd r1)) = [] /\
  constructions (emitted get_target_default_instance w2) = [].
Proof.
  intros r1 w2 r2.
  assert (H1 : fst r1 = addr_device)
    by (subst r1; rewrite get_target_default_instance_run; reflexivity).
  assert (H2 : fst r2 = addr_device)
    by (subst r2; rewrite get_target_default_instance_run; reflexivity).
  assert (Hd1 : exists d, static_device (snd r1) = Some d)
    by (subst r1; rewrite get_target_default_instance_run; cbn; eauto).
  destruct Hd1 as [d Hd1].
  assert (Hs1 : exists s, static_serial (snd r1) = Some s)
    by (subst r1; rewrite get_target_default_instance_run; cbn; eauto).
  destruct Hs1 as [s Hs1].
  assert (Hp1 : pending_constructions (snd r1) = [])
    by (unfold pending_constructions; rewrite Hd1, Hs1; reflexivity).
  assert (Hd2 : static_device w2 = Some d)
    by (subst w2; rewrite run_static_device, Hd1; reflexivity).
  assert (Hp2 : pending_constructions w2 = []).
  { pose proof (run_static_serial_args between (snd r1)) as Ha.
    fold w2 in Ha. rewrite Hs1 in Ha.
    unfold pending_constructions. rewrite Hd2.
    destruct (static_serial w2); [reflexivity | discriminate]. }
  rewrite H1, H2. cbn [deref_device]. repeat split.
  - exists d. exact Hd1.
  - subst r2. rewrite get_target_default_instance_run. cbn.
    rewrite Hd2, Hd1. reflexivity.
  - rewrite run_constructions, Hp1.
    destruct (existsb is_get_instance between); reflexivity.
  - pose proof (exec_constructions CallGetInstance w2) as Hc.
    rewrite exec_emitted in Hc. cbn [is_get_instance] in Hc.
    rewrite Hc. exact Hp2.
Qed.

(** C7. With [DEVICE_SERIAL_FC] off, no call of
    [get_target_default_instance] invokes [set_flow_control], from any world
    and whatever the RTS and CTS pins are; so the trace of a process never
    contains such a call. *)
Theorem no_flag_never_set_flow_control
    (Hfc : DEVICE_SERIAL_FC = false) :
  (forall w : World,
     set_flow_control_calls (emitted get_target_default_instance w) = []) /\
  (forall (hw0 : Hardware) (cs : list Call),
     set_flow_control_calls (trace (snd (run cs (init_world hw0)))) = []).
Proof.
  pose proof (flow_control_guard_no_flag Hfc) as Hg. split.
  - intros w. pose proof (exec_set_flow_control_calls CallGetInstance w) as H.
    rewrite exec_emitted, Hg in H. exact H.
  - intros hw0 cs. rewrite init_trace, run_set_flow_control_calls, Hg.
    reflexivity.
Qed.

(** C8. With [DEVICE_SERIAL_FC] on but RTS or CTS equal to [NC], no call of
    [get_target_default_instance] invokes [set_flow_control], from any world;
    so the trace of a process never contains such a call. *)
Theorem unconnected_pin_never_set_flow_control
    (Hfc : DEVICE_SERIAL_FC = true)
    (Hnc : MDMRTS = NC \/ MDMCTS = NC) :
  (forall w : World,
     set_flow_control_calls (emitted get_target_default_instance w) = []) /\
  (forall (hw0 : Hardware) (cs : list Call),
     set_flow_control_calls (trace (snd (run cs (init_world hw0)))) = []).
Proof.
  pose proof (flow_control_guard_nc Hnc) as Hg. split.
  - intros w. pose proof (exec_set_flow_control_calls CallGetInstance w) as H.
    rewrite exec_emitted, Hg in H. exact H.
  - intros hw0 cs. rewrite init_trace, run_set_flow_control_calls, Hg.
    reflexivity.
Qed.

(** C9. Over a whole process (any sequence of calls from process start):
    nothing is constructed before the first call of
    [get_target_default_instance]; from that call on exactly one serial
    object has been constructed, with [MDMTXD], [MDMRXD] and the configured
    baud rate, and after it exactly one adapter, on the address of that
    serial object; both stay in their statics, and no destructor is ever
    run. *)
Theorem singletons_constructed_once (hw0 : Hardware) (cs : list Call) :
  let w := snd (run cs (init_world hw0)) in
  static_serial (init_world hw0) = None /\
  static_device (init_world hw0) = None /\
  constructions (trace w) =
    (if existsb is_get_instance cs
     then [EvConstructSerial MDMTXD MDMRXD MBED_CONF_SARA4_PPP_BAUDRATE;
           EvConstructDevice addr_serial]
     else []) /\
  destructions (trace w) = [] /\
  option_map (fun s => (us_tx s, us_rx s, us_baud s)) (static_serial w) =
    (if existsb is_get_instance cs
     then Some (MDMTXD, MDMRXD, MBED_CONF_SARA4_PPP_BAUDRATE)
     else None) /\
  static_device w =
    (if existsb is_get_instance cs
     then Some (mkONBOARD_SARA4_PPP addr_serial)
     else None).
Proof.
  intros w. subst w. repeat split.
  - rewrite init_trace, run_constructions. reflexivity.
  - rewrite init_trace. apply run_destructions.
  - rewrite run_static_serial_args. reflexivity.
  - rewrite run_static_device. reflexivity.
Qed.

(** C10. With the flow-control flag on and both pins configured, every call
    of [get_target_default_instance], from any world, logs the flow-control
    line and invokes [set_flow_control] on the singleton serial object with
    [RTSCTS] and the configured pins; once the statics exist this is all a
    call does, and a process that makes [n] calls has logged and configured
    [n] times. *)
Theorem flow_control_repeated_on_every_call
    (Hfc : DEVICE_SERIAL_FC = true)
    (Hrts : MDMRTS <> NC) (Hcts : MDMCTS <> NC) :
  (forall w : World,
     flow_control_steps (emitted get_target_default_instance w) =
       [EvTrInfo "Modem flow control: RTS %d CTS %d" [MDMRTS; MDMCTS];
        EvSetFlowControl addr_serial RTSCTS MDMRTS MDMCTS]) /\
  (forall w : World,
     static_serial w <> None -> static_device w <> None ->
     emitted get_target_default_instance w =
       [EvTrInfo "Modem flow control: RTS %d CTS %d" [MDMRTS; MDMCTS];
        EvSetFlowControl addr_serial RTSCTS MDMRTS MDMCTS]) /\
  (forall (hw0 : Hardware) (cs : list Call),
     flow_control_steps (trace (snd (run cs (init_world hw0)))) =
       concat (repeat flow_control_block (count_get_instance cs))).
Proof.
  pose proof (flow_control_guard_true Hfc Hrts Hcts) as Hg.
  split; [|split].
  - intros w. pose proof (exec_flow_control_steps CallGetInstance w) as H.
    rewrite exec_emitted, Hg in H. exact H.
  - intros w Hs Hd. rewrite get_target_default_instance_emitted, Hg.
    destruct (static_serial w); [|congruence].
    destruct (static_device w); [|congruence].
    reflexivity.
  - intros hw0 cs. rewrite init_trace, run_flow_control_steps, Hg.
    reflexivity.
Qed.

End Properties.

(** ** How the entry points interact *)

Section Interplay.
Context {api : OnboardModemApi} {tgt : Target}.


Lemma exec_static_serial (c : Call) (w : World) :
  static_serial (snd (exec c w)) =
  if is_get_instance c
  then Some (flow_control_applied match static_serial w with
                                  | Some s => s
                                  | None => fresh_serial
                                  end)
  else static_serial w.
Proof.
  rewrite exec_snd. destruct c; cbn [is_get_instance].
  - rewrite power_on_run. reflexivity.
  - rewrite power_off_run. reflexivity.
  - rewrite get_target_default_instance_run. reflexivity.
Qed.


Lemma exec_other_calls (c : Call) (w : World) :
  other_calls (emitted (exec c) w) =
  if is_get_instance c
  then (match static_serial w with
        | Some _ => []
        | None => [EvConstructSerial MDMTXD MDMRXD
                                     MBED_CONF_SARA4_PPP_BAUDRATE]
        end)
       ++ (if flow_control_guard then flow_control_block else [])
       ++ (match static_device w with
           | Some _ => []
           | None => [EvConstructDevice addr_serial]
           end)
  else [].
Proof.
  rewrite exec_emitted. destruct c; cbn [is_get_instance].
  - rewrite power_on_emitted. reflexivity.
  - rewrite power_off_emitted. reflexivity.
  - rewrite get_target_default_instance_emitted.
    unfold other_calls. rewrite !filter_app.
    destruct (static_serial w), flow_control_guard, (static_device w);
      reflexivity.
Qed.

Lemma flow_control_applied_twice (s : UARTSerial) :
  flow_control_applied (flow_control_applied s) = flow_control_applied s.
Proof. unfold flow_control_applied. destruct flow_control_guard; reflexivity. Qed.



(** The statics after a run, and the calls other than hook calls made during
    it, depend on the statics before it and on nothing else of the world. *)
Lemma run_statics_ext (cs : list Call) (w w' : World) :
  static_serial w = static_serial w' ->
  static_device w = static_device w' ->
  static_serial (snd (run cs w)) = static_serial (snd (run cs w')) /\
  static_device (snd (run cs w)) = static_device (snd (run cs w')) /\
  other_calls (emitted (run cs) w) = other_calls (emitted (run cs) w').
Proof.
  revert w w'. induction cs as [|c cs IH]; intros w w' Hs Hd.
  - rewrite !run_emitted_nil. cbn. auto.
  - rewrite !run_cons_snd, !run_emitted_cons.
    destruct (IH (snd (exec c w)) (snd (exec c w'))) as (IHs & IHd & IHo).
    + rewrite !exec_static_serial, Hs. reflexivity.
    + rewrite !exec_static_device, Hd. reflexivity.
    + repeat split; try assumption.
      unfold other_calls in *. rewrite !filter_app, IHo.
      fold (other_calls (emitted (exec c) w)).
      fold (other_calls (emitted (exec c) w')).
      rewrite !exec_other_calls, Hs, Hd. reflexivity.
Qed.

Lemma run_static_serial (cs : list Call) (w : World) :
  static_serial (snd (run cs w)) =
  if existsb is_get_instance cs
  then Some (flow_control_applied match static_serial w with
                                  | Some s => s
                                  | None => fresh_serial
                                  end)
  else static_serial w.
Proof.
  revert w. induction cs as [|c cs IH]; intros w.
  - reflexivity.
  - rewrite run_cons_snd, IH, exec_static_serial. cbn [existsb].
    destruct (is_get_instance c); cbn [orb]; [|reflexivity].
    rewrite flow_control_applied_twice.
    destruct (existsb is_get_instance cs); reflexivity.
Qed.

(** Once both statics exist, a run only repeats the flow-control block. *)
Lemma run_other_calls_constructed (cs : list Call) (w : World) :
  static_serial w <> None -> static_device w <> None ->
  other_calls (emitted (run cs) w) =
  concat (repeat (if flow_control_guard then flow_control_block else [])
                 (count_get_instance cs)).
Proof.
  revert w. induction cs as [|c cs IH]; intros w Hs Hd.
  - rewrite run_emitted_nil. reflexivity.
  - rewrite run_emitted_cons. unfold other_calls in *. rewrite filter_app.
    fold (other_calls (emitted (exec c) w)).
    rewrite exec_other_calls, IH.
    + unfold count_get_instance. cbn [filter].
      destruct (is_get_instance c); [|reflexivity].
      destruct (static_serial w); [|congruence].
      destruct (static_device w); [|congruence].
      cbn [length repeat concat app]. rewrite app_nil_r. reflexivity.
    + rewrite exec_static_serial.
      destruct (is_get_instance c); [discriminate | exact Hs].
    + rewrite exec_static_device.
      destruct (is_get_instance c); [discriminate | exact Hd].
Qed.


(** A run and the same run without its power calls agree on the statics and
    on every call that is not a hook call. *)
Lemma run_without_power_calls (cs : list Call) (w : World) :
  static_serial (snd (run cs w)) =
    static_serial (snd (run (filter is_get_instance cs) w)) /\
  static_device (snd (run cs w)) =
    static_device (snd (run (filter is_get_instance cs) w)) /\
  other_calls (emitted (run cs) w) =
    other_calls (emitted (run (filter is_get_instance cs)) w).
Proof.
  revert w. induction cs as [|c cs IH]; intros w; [cbn; auto|].
  cbn [filter].
  assert (Hget : is_get_instance c = true ->
                 static_serial (snd (run (c :: cs) w)) =
                   static_serial
                     (snd (run (c :: filter is_get_instance cs) w)) /\
                 static_device (snd (run (c :: cs) w)) =
                   static_device
                     (snd (run (c :: filter is_get_instance cs) w)) /\
                 other_calls (emitted (run (c :: cs)) w) =
                   other_calls
                     (emitted (run (c :: filter is_get_instance cs)) w)).
  { intros _. rewrite !run_cons_snd, !run_emitted_cons.
    destruct (IH (snd (exec c w))) as (IHs & IHd & IHo).
    repeat split; try assumption.
    unfold other_calls in *. rewrite !filter_app, IHo. reflexivity. }
  destruct (is_get_instance c) eqn:Ec; [apply Hget; reflexivity|].
  clear Hget. rewrite run_cons_snd, run_emitted_cons.
  destruct (IH (snd (exec c w))) as (IHs & IHd & IHo).
  destruct (run_statics_ext (filter is_get_instance cs) (snd (exec c w)) w)
    as (Es & Ed & Eo).
  { rewrite exec_static_serial, Ec. reflexivity. }
  { rewrite exec_static_device, Ec. reflexivity. }
  repeat split.
  - rewrite IHs. exact Es.
  - rewrite IHd. exact Ed.
  - unfold other_calls in *. rewrite filter_app, IHo, Eo.
    fold (other_calls (emitted (exec c) w)).
    rewrite exec_other_calls, Ec. reflexivity.
Qed.

(** X2. [power_on] and [power_off] never act on the statics: the serial
    object and the adapter after a run, and every call made during it other
    than hook calls (constructions, log lines, flow-control settings), are
    those of its [get_target_default_instance] calls alone. *)
Theorem power_calls_never_touch_statics (cs : list Call) (w : World) :
  static_serial (snd (run cs w)) =
    static_serial (snd (run (filter is_get_instance cs) w)) /\
  static_device (snd (run cs w)) =
    static_device (snd (run (filter is_get_instance cs) w)) /\
  other_calls (emitted (run cs) w) =
    other_calls (emitted (run (filter is_get_instance cs)) w).
Proof. apply run_without_power_calls. Qed.

(** X3. After one call of [get_target_default_instance], from any world, a
    further call changes nothing but the trace: the hardware, the serial
    object and the adapter stay as the first call left them, and the only
    external calls it makes are those of the flow-control block, if its guard
    holds. *)
Theorem get_target_default_instance_idempotent (w : World) :
  let w1 := snd (get_target_default_instance w) in
  let w2 := snd (get_target_default_instance w1) in
  hw w2 = hw w1 /\
  static_serial w2 = static_serial w1 /\
  static_device w2 = static_device w1 /\
  emitted get_target_default_instance w1 =
    (if flow_control_guard then flow_control_block else []).
Proof.
  intros w1 w2. subst w2.
  rewrite get_target_default_instance_emitted.
  rewrite (get_target_default_instance_run w1).
  cbn [snd hw static_serial static_device].
  subst w1. rewrite (get_target_default_instance_run w).
  cbn [snd hw static_serial static_device].
  repeat split.
  - destruct flow_control_guard; reflexivity.
  - rewrite app_nil_r. reflexivity.
Qed.

(** X4. From process start, the serial object is absent until the first call
    of [get_target_default_instance]; from then on, whatever calls follow, it
    holds [MDMTXD], [MDMRXD], the configured baud rate and, as flow control,
    [RTSCTS] on the configured pins if the flag is on and both pins are
    connected, and no flow-control setting at all otherwise. *)
Theorem serial_configuration_after_run (hw0 : Hardware) (cs : list Call) :
  static_serial (snd (run cs (init_world hw0))) =
  if existsb is_get_instance cs
  then Some (mkUARTSerial MDMTXD MDMRXD MBED_CONF_SARA4_PPP_BAUDRATE
               (if DEVICE_SERIAL_FC && negb (MDMRTS =? NC)
                   && negb (MDMCTS =? NC)
                then Some (RTSCTS, MDMRTS, MDMCTS)
                else None))
  else None.
Proof.
  rewrite run_static_serial. cbn [init_world static_serial].
  destruct (existsb is_get_instance cs); [|reflexivity].
  unfold flow_control_applied, flow_control_guard, fresh_serial.
  destruct DEVICE_SERIAL_FC, (negb (MDMRTS =? NC)), (negb (MDMCTS =? NC));
    reflexivity.
Qed.

Lemma existsb_get_instance_filter (cs : list Call) :
  existsb is_get_instance cs =
  match filter is_get_instance cs with
  | [] => false
  | _ :: _ => true
  end.
Proof.
  induction cs as [|c cs IH]; [reflexivity|].
  cbn [existsb filter]. destruct (is_get_instance c); [reflexivity|].
  exact IH.
Qed.

Lemma filter_get_instance_all (cs : list Call) (c : Call) :
  In c (filter is_get_instance cs) -> c = CallGetInstance.
Proof.
  intros Hc. apply filter_In in Hc. destruct Hc as [_ Hc].
  destruct c; [discriminate | discriminate | reflexivity].
Qed.

Lemma count_get_instance_filter (cs : list Call) :
  count_get_instance (filter is_get_instance cs) = count_get_instance cs.
Proof.
  unfold count_get_instance. f_equal. induction cs as [|c cs IH].
  - reflexivity.
  - cbn [filter]. destruct (is_get_instance c) eqn:Ec; [|exact IH].
    cbn [filter]. rewrite Ec. f_equal. exact IH.
Qed.

(** X5. From process start, the calls a run makes other than hook calls are,
    in this order: the construction of the serial object, the flow-control
    block if its guard holds, the construction of the adapter on the address
    of the serial object, and then the flow-control block again once for
    every later call of [get_target_default_instance]; a run without such a
    call makes none.  So nothing is logged, configured or constructed before
    the serial object exists. *)
Theorem collaborator_calls_of_a_run (hw0 : Hardware) (cs : list Call) :
  other_calls (trace (snd (run cs (init_world hw0)))) =
  if existsb is_get_instance cs
  then EvConstructSerial MDMTXD MDMRXD MBED_CONF_SARA4_PPP_BAUDRATE
       :: (if flow_control_guard then flow_control_block else [])
       ++ EvConstructDevice addr_serial
       :: concat (repeat (if flow_control_guard then flow_control_block
                          else [])
                         (count_get_instance cs - 1))
  else [].
Proof.
  rewrite init_trace.
  destruct (run_without_power_calls cs (init_world hw0)) as (_ & _ & ->).
  pose proof (existsb_get_instance_filter cs) as Hex.
  pose proof (filter_get_instance_all cs) as Hall.
  pose proof (count_get_instance_filter cs) as Hcount.
  rewrite Hex, <- Hcount.
  destruct (filter is_get_instance cs) as [|c gs]; [reflexivity|].
  rewrite (Hall c (or_introl eq_refl)).
  rewrite run_emitted_cons. unfold other_calls. rewrite filter_app.
  fold (other_calls (emitted (exec CallGetInstance) (init_world hw0))).
  fold (other_calls (emitted (run gs)
                       (snd (exec CallGetInstance (init_world hw0))))).
  rewrite exec_other_calls, run_other_calls_constructed.
  - cbn [is_get_instance init_world static_serial static_device app].
    unfold count_get_instance. cbn [filter is_get_instance length].
    rewrite Nat.sub_succ, Nat.sub_0_r, <- app_assoc. reflexivity.
  - rewrite exec_static_serial. discriminate.
  - rewrite exec_static_device. discriminate.
Qed.

End Interplay.

(** ** Worked runs on the sample boards *)

(** Each hook reports a device error and [power_on] still returns 0. *)
Example power_on_failing_hooks :
  fst (@hook_run failing_api HookInit 0%nat) = NSAPI_ERROR_DEVICE_ERROR /\
  @power_on failing_api boot =
    (NSAPI_ERROR_OK,
     @mkWorld failing_api 2%nat None None [EvHook HookInit; EvHook HookPowerUp]).
Proof. split; reflexivity. Qed.

Example power_off_failing_hooks :
  @power_off failing_api boot =
    (NSAPI_ERROR_OK,
     @mkWorld failing_api 2%nat None None [EvHook HookPowerDown; EvHook HookDeinit]).
Proof. reflexivity. Qed.

(** The first call on [target_fc]: both statics are constructed and the
    serial object ends up configured for RTS/CTS. *)
Example first_call_target_fc :
  @get_target_default_instance failing_api target_fc boot =
    (addr_device,
     @mkWorld failing_api 0%nat
       (Some (mkUARTSerial 2 3 115200 (Some (RTSCTS, 0, 1))))
       (Some (mkONBOARD_SARA4_PPP addr_serial))
       [EvConstructSerial 2 3 115200;
        EvTrInfo "Modem flow control: RTS %d CTS %d" [0; 1];
        EvSetFlowControl addr_serial RTSCTS 0 1;
        EvConstructDevice addr_serial]).
Proof. reflexivity. Qed.

Example first_call_target_cts_nc :
  @get_target_default_instance failing_api target_cts_nc boot =
    (addr_device,
     @mkWorld failing_api 0%nat
       (Some (mkUARTSerial 2 3 115200 None))
       (Some (mkONBOARD_SARA4_PPP addr_serial))
       [EvConstructSerial 2 3 115200; EvConstructDevice addr_serial]).
Proof. reflexivity. Qed.

(** C1 as stated fails: on [target_fc] (flag on, RTS and CTS configured) two
    calls of [get_target_default_instance] invoke [set_flow_control] twice,
    the second time after the adapter has already been returned once. *)
Lemma set_flow_control_invoked_twice :
  @DEVICE_SERIAL_FC target_fc = true /\
  @MDMRTS target_fc <> @NC target_fc /\
  @MDMCTS target_fc <> @NC target_fc /\
  trace (snd (@run failing_api target_fc
                   [CallGetInstance; CallGetInstance] boot)) =
    [EvConstructSerial 2 3 115200;
     EvTrInfo "Modem flow control: RTS %d CTS %d" [0; 1];
     EvSetFlowControl addr_serial RTSCTS 0 1;
     EvConstructDevice addr_serial;
     EvTrInfo "Modem flow control: RTS %d CTS %d" [0; 1];
     EvSetFlowControl addr_serial RTSCTS 0 1] /\
  length (set_flow_control_calls
            (trace (snd (@run failing_api target_fc
                              [CallGetInstance; CallGetInstance]
                              boot)))) = 2%nat /\
  length (set_flow_control_calls
            (trace (snd (@run failing_api target_fc
                              [CallGetInstance; CallGetInstance]
                              boot)))) <> 1%nat.
Proof.
  split; [reflexivity|].
  split; [cbn; lia|].
  split; [cbn; lia|].
  split; [reflexivity|].
  split; [reflexivity|].
  cbn. lia.
Qed.

Lemma set_flow_control_once_per_call_witness :
  @DEVICE_SERIAL_FC target_fc = true /\
  @MDMRTS target_fc <> @NC target_fc /\
  @MDMCTS target_fc <> @NC target_fc /\
  set_flow_control_calls
    (trace (snd (@run failing_api target_fc
                      [CallGetInstance; CallPowerOn; CallGetInstance;
                       CallPowerOff; CallGetInstance]
                      boot))) =
    [EvSetFlowControl addr_serial RTSCTS 0 1;
     EvSetFlowControl addr_serial RTSCTS 0 1;
     EvSetFlowControl addr_serial RTSCTS 0 1].
Proof.
  assert (Hfc : @DEVICE_SERIAL_FC target_fc = true) by reflexivity.
  assert (Hrts : @MDMRTS target_fc <> @NC target_fc) by (cbn; lia).
  assert (Hcts : @MDMCTS target_fc <> @NC target_fc) by (cbn; lia).
  split; [exact Hfc|]. split; [exact Hrts|]. split; [exact Hcts|].
  exact (proj1 (@set_flow_control_once_per_call failing_api target_fc
                  Hfc Hrts Hcts 0%nat
                  [CallGetInstance; CallPowerOn; CallGetInstance;
                   CallPowerOff; CallGetInstance])).
Defined.

Lemma no_flag_never_set_flow_control_witness :
  @DEVICE_SERIAL_FC target_no_fc = false /\
  set_flow_control_calls
    (trace (snd (@run failing_api target_no_fc
                      [CallGetInstance; CallPowerOn; CallGetInstance]
                      boot))) = [].
Proof.
  assert (Hfc : @DEVICE_SERIAL_FC target_no_fc = false) by reflexivity.
  split; [exact Hfc|].
  exact (proj2 (@no_flag_never_set_flow_control failing_api target_no_fc Hfc)
               0%nat [CallGetInstance; CallPowerOn; CallGetInstance]).
Defined.

Lemma unconnected_pin_never_set_flow_control_witness :
  @DEVICE_SERIAL_FC target_cts_nc = true /\
  (@MDMRTS target_cts_nc = @NC target_cts_nc \/
   @MDMCTS target_cts_nc = @NC target_cts_nc) /\
  set_flow_control_calls
    (trace (snd (@run failing_api target_cts_nc
                      [CallGetInstance; CallPowerOn; CallGetInstance]
                      boot))) = [].
Proof.
  assert (Hfc : @DEVICE_SERIAL_FC target_cts_nc = true) by reflexivity.
  assert (Hnc : @MDMRTS target_cts_nc = @NC target_cts_nc \/
                @MDMCTS target_cts_nc = @NC target_cts_nc)
    by (right; reflexivity).
  split; [exact Hfc|]. split; [exact Hnc|].
  exact (proj2 (@unconnected_pin_never_set_flow_control
                  failing_api target_cts_nc Hfc Hnc)
               0%nat [CallGetInstance; CallPowerOn; CallGetInstance]).
Defined.

Lemma flow_control_repeated_on_every_call_witness :
  @DEVICE_SERIAL_FC target_fc = true /\
  @MDMRTS target_fc <> @NC target_fc /\
  @MDMCTS target_fc <> @NC target_fc /\
  @emitted failing_api Ptr (@get_target_default_instance failing_api target_fc)
    (snd (@get_target_default_instance failing_api target_fc
            boot)) =
    [EvTrInfo "Modem flow control: RTS %d CTS %d" [0; 1];
     EvSetFlowControl addr_serial RTSCTS 0 1].
Proof.
  assert (Hfc : @DEVICE_SERIAL_FC target_fc = true) by reflexivity.
  assert (Hrts : @MDMRTS target_fc <> @NC target_fc) by (cbn; lia).
  assert (Hcts : @MDMCTS target_fc <> @NC target_fc) by (cbn; lia).
  split; [exact Hfc|]. split; [exact Hrts|]. split; [exact Hcts|].
  apply (proj1 (proj2 (@flow_control_repeated_on_every_call
                         failing_api target_fc Hfc Hrts Hcts))).
  - cbn. discriminate.
  - cbn. discriminate.
Defined.

(** A mixed run on [target_fc]: the hook calls on one side, everything else
    on the other. *)
Example mixed_run_target_fc :
  let w := snd (@run failing_api target_fc
                     [CallPowerOn; CallGetInstance; CallPowerOff;
                      CallGetInstance] boot) in
  hook_calls (trace w) =
    [EvHook HookInit; EvHook HookPowerUp;
     EvHook HookPowerDown; EvHook HookDeinit] /\
  other_calls (trace w) =
    [EvConstructSerial 2 3 115200;
     EvTrInfo "Modem flow control: RTS %d CTS %d" [0; 1];
     EvSetFlowControl addr_serial RTSCTS 0 1;
     EvConstructDevice addr_serial;
     EvTrInfo "Modem flow control: RTS %d CTS %d" [0; 1];
     EvSetFlowControl addr_serial RTSCTS 0 1] /\
  hw w = 4%nat /\
  static_serial w = Some (mkUARTSerial 2 3 115200 (Some (RTSCTS, 0, 1))).
Proof. repeat split. Qed.

Example mixed_run_target_no_fc :
  let w := snd (@run failing_api target_no_fc
                     [CallGetInstance; CallPowerOn; CallGetInstance] boot) in
  other_calls (trace w) =
    [EvConstructSerial 2 3 115200; EvConstructDevice addr_serial] /\
  static_serial w = Some (mkUARTSerial 2 3 115200 None).
Proof. repeat split. Qed.
